(** * Search views of the system status dashboard

    A shallow embedding of [ssd/main/views/search.py]: the three request
    handlers [search], [rsearch] and [rsearch_recent], the query sets they
    build, and the properties of the result sets they hand to the templates.

    The handlers are written in a small state-and-exception monad over a
    [world] that holds the database tables, the thread-local active time zone
    of [django.utils.timezone] and the log of query sets that were built. *)

From Stdlib Require Import ZArith.
From stdpp Require Import gmap strings list sorting.

Local Open Scope Z_scope.

(** ** Strings: the [contains] lookup *)

Module Str.

(** The [__contains] lookup: the case-sensitive containment test
    ([LIKE BINARY '%needle%'], the pattern characters of the needle being
    escaped), character by character. *)
Fixpoint contains (needle hay : string) : bool :=
  String.prefix needle hay ||
  match hay with
  | EmptyString => false
  | String _ rest => contains needle rest
  end.

(** What "is a substring of" means. *)
Definition substring_of (needle hay : string) : Prop :=
  ∃ before after : string, hay = before +:+ needle +:+ after.

End Str.

(** ** Python values *)

(** [status] is first a string of the cleaned form data and is then rebound
    to [True] or [False]; both kinds of value reach the comparison with the
    empty string and the [isnull] lookup. *)
Inductive pyval :=
  | PyStr (s : string)
  | PyBool (b : bool).

(** [v == s] for a string literal [s]: a [bool] never equals a [str]. *)
Definition py_eq_str (v : pyval) (s : string) : bool :=
  match v with
  | PyStr t => bool_decide (t = s)
  | PyBool _ => false
  end.

(** [bool(v)] *)
Definition truthy (v : pyval) : bool :=
  match v with
  | PyStr s => negb (bool_decide (s = ""%string))
  | PyBool b => b
  end.

(** ** Dates, times and time zones *)

Record date := { year : Z; month : Z; day : Z }.
Record time := { hour : Z; minute : Z; second : Z }.

(** A naive [datetime.datetime]. *)
Record datetime := { dt_date : date; dt_time : time }.

(** [datetime.datetime.combine] *)
Definition combine (d : date) (t : time) : datetime :=
  {| dt_date := d; dt_time := t |}.

(** An aware datetime is compared by its instant: seconds since the epoch in
    UTC.  The database stores such instants. *)
Definition instant := Z.

(** A [pytz] time zone: its name and its [localize] method, which attaches the
    zone to a naive datetime.  [localize] is taken as total: the dates at
    the two ends of the calendar, where a zone with daylight saving rules
    fails with [OverflowError], are not part of the model. *)
Record tzinfo := { zone : string; localize : datetime → instant }.

(** ** The models *)

(** Modelled from the spec: the model classes of [ssd.main.models] are not
    part of the sources.  [Incident] has a date, a detail text and a closed
    timestamp that is null while the incident is open; [i_id] is its key. *)
Record Incident := {
  i_id : Z;
  i_date : instant;
  i_closed : option instant;
  i_detail : string
}.

(** Modelled from the spec: [Service_Issue] links an incident to a service;
    [si_incident_id] is the foreign key column that [incident__...] follows. *)
Record Service_Issue := {
  si_id : Z;
  si_service_id : Z;
  si_incident_id : Z
}.

(** Modelled from the spec: [Report], with the eight columns that the
    report views select. *)
Record Report := {
  r_id : Z;
  r_date : instant;
  r_name : string;
  r_email : string;
  r_description : string;
  r_additional : string;
  r_screenshot1 : string;
  r_screenshot2 : string
}.

Record database := {
  incidents : list Incident;
  service_issues : list Service_Issue;
  reports : list Report
}.

(** ** Query sets *)

Module ORM.

(** A row of
    [.values('incident__date','incident_id','incident__closed','incident__detail')]. *)
Record IncidentRow := {
  incident__date : instant;
  incident_id : Z;
  incident__closed : option instant;
  incident__detail : string
}.

#[global] Instance IncidentRow_eq_dec : EqDecision IncidentRow.
Proof. solve_decision. Defined.

(** A row of [.values('id','date','name','email','description',
    'additional','screenshot1','screenshot2')]. *)
Record ReportRow := {
  id : Z;
  date_ : instant;
  name : string;
  email : string;
  description : string;
  additional : string;
  screenshot1 : string;
  screenshot2 : string
}.

(** Following [incident__...] from [Service_Issue] is an inner join on the
    foreign key. *)
Definition join (sis : list Service_Issue) (incs : list Incident)
  : list (Service_Issue * Incident) :=
  si ← sis;
  (λ i, (si, i)) <$> filter (λ i, i_id i = si_incident_id si) incs.

(** [__range=[lo,hi]] is [BETWEEN lo AND hi]. *)
Definition in_range (lo hi d : instant) : bool :=
  bool_decide (lo ≤ d) && bool_decide (d ≤ hi).

(** [__isnull=v] tests the truth value of [v]: [IS NULL] when it is true,
    [IS NOT NULL] otherwise. *)
Definition isnull {A} (v : pyval) (x : option A) : bool :=
  if truthy v
  then match x with None => true | Some _ => false end
  else match x with None => false | Some _ => true end.

Definition incident_values (p : Service_Issue * Incident) : IncidentRow :=
  {| incident__date := i_date p.2;
     incident_id := si_incident_id p.1;
     incident__closed := i_closed p.2;
     incident__detail := i_detail p.2 |}.

Definition report_values (r : Report) : ReportRow :=
  {| id := r_id r; date_ := r_date r; name := r_name r; email := r_email r;
     description := r_description r; additional := r_additional r;
     screenshot1 := r_screenshot1 r; screenshot2 := r_screenshot2 r |}.

End ORM.

(** ** Requests, forms and responses *)

Record HttpRequest := {
  method : string;
  POST : gmap string string;
  COOKIES : gmap string string
}.

(** [form.cleaned_data] of a [SearchForm]. *)
Record cleaned := {
  s_date : date;
  s_time : time;
  e_date : date;
  e_time : time;
  text : string;
  status : string
}.

(** A form instance: [SearchForm(request.POST)] is bound to the submitted
    data, [SearchForm()] is unbound. *)
Record Form := { is_bound : bool; data : gmap string string }.

Definition SearchForm (submitted : option (gmap string string)) : Form :=
  match submitted with
  | Some d => {| is_bound := true; data := d |}
  | None => {| is_bound := false; data := ∅ |}
  end.

(** The [results] entry of a template context. *)
Inductive QuerySet :=
  | IncidentRows (rows : list ORM.IncidentRow)
  | ReportRows (rows : list ORM.ReportRow).

(** The context dictionaries of the views have the keys ['title'],
    ['results'] and ['form']; the last two are not always there. *)
Record Context := {
  title : string;
  results : option QuerySet;
  form : option Form
}.

(** [render_to_response(template, context, ...)] *)
Record HttpResponse := { template : string; context : Context }.

(** ** The view monad *)

(** The managers a query set starts from. *)
Inductive manager := Service_Issue_objects | Report_objects.

Record world := {
  db : database;
  (** the thread-local time zone of [django.utils.timezone] *)
  active_tz : option tzinfo;
  (** the query sets built so far, latest first *)
  queries : list manager
}.

Inductive exn := UnknownTimeZoneError (name : string).

Inductive outcome (A : Type) :=
  | Returned (a : A) (w : world)
  | Raised (e : exn) (w : world).
Arguments Returned {A} a w.
Arguments Raised {A} e w.

Definition View (A : Type) : Type := world → outcome A.

Definition ret {A} (a : A) : View A := λ w, Returned a w.

Definition raise {A} (e : exn) : View A := λ w, Raised e w.

Definition bind {A B} (m : View A) (k : A → View B) : View B :=
  λ w, match m w with
       | Returned a w' => k a w'
       | Raised e w' => Raised e w'
       end.

Notation "x ←← m ; k" := (bind m (λ x, k))
  (at level 100, m at next level, right associativity, only parsing).
Notation "m ;;; k" := (bind m (λ _, k))
  (at level 100, right associativity, only parsing).

(** The response of a view that returned. *)
Definition response {A} (o : outcome A) : option A :=
  match o with Returned a _ => Some a | Raised _ _ => None end.

Definition final {A} (o : outcome A) : world :=
  match o with Returned _ w => w | Raised _ w => w end.

(** The rows handed to the template, when the view returned a page that has
    a ['results'] entry. *)
Definition incident_rows (o : outcome HttpResponse) : option (list ORM.IncidentRow) :=
  match response o with
  | Some r => match results (context r) with
              | Some (IncidentRows rows) => Some rows
              | _ => None
              end
  | None => None
  end.

Definition report_rows (o : outcome HttpResponse) : option (list ORM.ReportRow) :=
  match response o with
  | Some r => match results (context r) with
              | Some (ReportRows rows) => Some rows
              | _ => None
              end
  | None => None
  end.

(** Building a query set over a manager reads the tables and is logged. *)
Definition query {A} (m : manager) (q : database → A) : View A :=
  λ w, Returned (q (db w))
         {| db := db w; active_tz := active_tz w; queries := m :: queries w |}.

Definition render_to_response (tpl : string) (ctx : Context) : View HttpResponse :=
  ret {| template := tpl; context := ctx |}.

(** ** Orderings *)

(** [order_by('-incident__date')] *)
Definition by_date_desc (a b : ORM.IncidentRow) : Prop :=
  ORM.incident__date b ≤ ORM.incident__date a.

(** [order_by('-id')] *)
Definition by_id_desc (a b : ORM.ReportRow) : Prop := ORM.id b ≤ ORM.id a.

#[global] Instance by_date_desc_dec : RelDecision by_date_desc.
Proof. intros a b. unfold by_date_desc. apply _. Defined.

#[global] Instance by_id_desc_dec : RelDecision by_id_desc.
Proof. intros a b. unfold by_id_desc. apply _. Defined.

#[global] Instance by_date_desc_trans : Transitive by_date_desc.
Proof. unfold by_date_desc. intros a b c. lia. Qed.

#[global] Instance by_date_desc_total : Total by_date_desc.
Proof. unfold by_date_desc. intros a b. lia. Qed.

#[global] Instance by_id_desc_trans : Transitive by_id_desc.
Proof. unfold by_id_desc. intros a b c. lia. Qed.

#[global] Instance by_id_desc_total : Total by_id_desc.
Proof. unfold by_id_desc. intros a b. lia. Qed.

(** The [incident__closed__isnull] argument that a cleaned status leads
    to: none when the status is empty. *)
Definition closed_isnull_of (st : string) : option pyval :=
  if bool_decide (st = "open"%string) then Some (PyBool true)
  else if bool_decide (st = "closed"%string) then Some (PyBool false)
  else if bool_decide (st = ""%string) then None
  else Some (PyStr st).

(** The world after a view built a query set over [m] and activated [tz]. *)
Definition logged (m : manager) (tz : tzinfo) (w : world) : world :=
  {| db := db w; active_tz := Some tz; queries := m :: queries w |}.

(** ** The views *)

Section Views.

(** [settings.TIME_ZONE] *)
Variable TIME_ZONE : string.

(** [pytz.timezone]: the zone of a name of the time zone database, [None]
    where [pytz] raises [UnknownTimeZoneError]. *)
Variable pytz_timezone : string → option tzinfo.

(** The validation of [ssd.main.forms.SearchForm]: the error dictionary and
    the cleaned data of submitted form data. *)
Variable SearchForm_errors : gmap string string → gmap string (list string).
Variable SearchForm_cleaned : gmap string string → cleaned.

Definition errors (f : Form) : gmap string (list string) :=
  if is_bound f then SearchForm_errors (data f) else ∅.

(** [form.is_valid()]: bound and without errors. *)
Definition is_valid (f : Form) : bool :=
  is_bound f && bool_decide (errors f = ∅).

Definition cleaned_data (f : Form) : cleaned := SearchForm_cleaned (data f).

(** The bounds of the search, localized in [tz]. *)
Definition start_of (request : HttpRequest) (tz : tzinfo) : instant :=
  let cd := SearchForm_cleaned (POST request) in
  localize tz (combine (s_date cd) (s_time cd)).

Definition end_of (request : HttpRequest) (tz : tzinfo) : instant :=
  let cd := SearchForm_cleaned (POST request) in
  localize tz (combine (e_date cd) (e_time cd)).

(** [pytz.timezone(name)] *)
Definition timezone (name : string) : View tzinfo :=
  match pytz_timezone name with
  | Some tz => ret tz
  | None => raise (UnknownTimeZoneError name)
  end.

(** [jtz.activate(name)] for a string: looks the zone up and makes it the
    current one. *)
Definition activate (name : string) : View unit :=
  tz ←← timezone name;
  λ w, Returned tt {| db := db w; active_tz := Some tz; queries := queries w |}.

(** The time zone the views settle on: the cookie, else the setting. *)
Definition set_timezone (request : HttpRequest) : string :=
  match COOKIES request !! "timezone"%string with
  | None => TIME_ZONE
  | Some tz => tz
  end.

(** [Service_Issue.objects.filter(...).values(...).distinct()
    .order_by('-incident__date')]; [closed_isnull] is the
    [incident__closed__isnull] argument when it is given. *)
Definition Service_Issue_filter (closed_isnull : option pyval)
    (start end_ : instant) (txt : string) (d : database)
  : list ORM.IncidentRow :=
  let matches (p : Service_Issue * Incident) : bool :=
    match closed_isnull with
    | Some v => ORM.isnull v (i_closed p.2)
    | None => true
    end
    && ORM.in_range start end_ (i_date p.2)
    && Str.contains txt (i_detail p.2) in
  merge_sort by_date_desc
    (remove_dups
       (ORM.incident_values <$>
          filter (λ p, matches p = true)
            (ORM.join (service_issues d) (incidents d)))).

(** [Report.objects.filter(date__range=..., description__contains=...)
    .values(...).order_by('-id')] *)
Definition Report_filter (start end_ : instant) (txt : string) (d : database)
  : list ORM.ReportRow :=
  merge_sort by_id_desc
    (ORM.report_values <$>
       filter (λ r, ORM.in_range start end_ (r_date r)
                    && Str.contains txt (r_description r) = true)
         (reports d)).

(** [Report.objects.values(...).order_by('-id')[:5]] *)
Definition Report_recent (d : database) : list ORM.ReportRow :=
  take 5 (merge_sort by_id_desc (ORM.report_values <$> reports d)).

Definition search (request : HttpRequest) : View HttpResponse :=
  if bool_decide (method request = "POST"%string) then
    let form := SearchForm (Some (POST request)) in
    if is_valid form then
      let s_date := s_date (cleaned_data form) in
      let s_time := s_time (cleaned_data form) in
      let e_date := e_date (cleaned_data form) in
      let e_time := e_time (cleaned_data form) in
      let text := text (cleaned_data form) in
      let status := PyStr (status (cleaned_data form)) in
      let set_timezone := set_timezone request in
      let start := combine s_date s_time in
      let end_ := combine e_date e_time in
      tz ←← timezone set_timezone;
      let start := localize tz start in
      let end_ := localize tz end_ in
      let status :=
        if py_eq_str status "open" then PyBool true
        else if py_eq_str status "closed" then PyBool false
        else status in
      results ←←
        (if py_eq_str status "" then
           query Service_Issue_objects (Service_Issue_filter None start end_ text)
         else
           query Service_Issue_objects
             (Service_Issue_filter (Some status) start end_ text));
      activate set_timezone;;;
      render_to_response "search/search_results.html"
        {| title := "SSD Search Results";
           results := Some (IncidentRows results);
           form := Some form |}
    else
      render_to_response "search/search.html"
        {| title := "SSD Incident Search"; results := None; form := Some form |}
  else
    let form := SearchForm None in
    render_to_response "search/search.html"
      {| title := "SSD Incident Search"; results := None; form := Some form |}.

Definition rsearch (request : HttpRequest) : View HttpResponse :=
  if bool_decide (method request = "POST"%string) then
    let form := SearchForm (Some (POST request)) in
    if is_valid form then
      let s_date := s_date (cleaned_data form) in
      let s_time := s_time (cleaned_data form) in
      let e_date := e_date (cleaned_data form) in
      let e_time := e_time (cleaned_data form) in
      let text := text (cleaned_data form) in
      let set_timezone := set_timezone request in
      let start := combine s_date s_time in
      let end_ := combine e_date e_time in
      tz ←← timezone set_timezone;
      let start := localize tz start in
      let end_ := localize tz end_ in
      results ←← query Report_objects (Report_filter start end_ text);
      activate set_timezone;;;
      render_to_response "search/rsearch_results.html"
        {| title := "SSD Incident Report Results";
           results := Some (ReportRows results);
           form := Some form |}
    else
      render_to_response "search/rsearch.html"
        {| title := "SSD Incident Report Search"; results := None;
           form := Some form |}
  else
    let form := SearchForm None in
    render_to_response "search/rsearch.html"
      {| title := "SSD Incident Report Search"; results := None;
         form := Some form |}.

Definition rsearch_recent (request : HttpRequest) : View HttpResponse :=
  let set_timezone := set_timezone request in
  activate set_timezone;;;
  results ←← query Report_objects Report_recent;
  render_to_response "search/rsearch_results.html"
    {| title := "SSD Incident Report Results";
       results := Some (ReportRows results);
       form := None |}.

End Views.

(** ** A concrete installation

    A time zone database with two zones, a form validation and a small
    database, on which the views can be run. *)

Module Fixture.

(** Days from 1970-01-01 to a date of the proleptic Gregorian calendar. *)
Definition days_from_civil (d : date) : Z :=
  let y := if month d <=? 2 then year d - 1 else year d in
  let era := y / 400 in
  let yoe := y - era * 400 in
  let mp := if month d <=? 2 then month d + 9 else month d - 3 in
  let doy := (153 * mp + 2) / 5 + day d - 1 in
  let doe := yoe * 365 + yoe / 4 - yoe / 100 + doy in
  era * 146097 + doe - 719468.

Definition seconds_of (t : time) : Z :=
  hour t * 3600 + minute t * 60 + second t.

(** A zone at a fixed offset from UTC, east positive. *)
Definition fixed_zone (nm : string) (offset : Z) : tzinfo :=
  {| zone := nm;
     localize := λ dt,
       days_from_civil (dt_date dt) * 86400 + seconds_of (dt_time dt) - offset |}.

Definition pytz_timezone (nm : string) : option tzinfo :=
  if bool_decide (nm = "UTC"%string) then Some (fixed_zone "UTC" 0)
  else if bool_decide (nm = "Etc/GMT-3"%string)
       then Some (fixed_zone "Etc/GMT-3" 10800)
  else None.

Definition TIME_ZONE : string := "UTC".

Definition day1 : date := {| year := 2013; month := 1; day := 1 |}.
Definition day31 : date := {| year := 2013; month := 1; day := 31 |}.
Definition midnight : time := {| hour := 0; minute := 0; second := 0 |}.

(** The form accepts a submission when it has an ['s_date'] field; the
    range is then January 2013. *)
Definition SearchForm_errors (d : gmap string string)
  : gmap string (list string) :=
  match d !! "s_date"%string with
  | Some _ => ∅
  | None => {[ "s_date"%string := ["This field is required."%string] ]}
  end.

Definition SearchForm_cleaned (d : gmap string string) : cleaned :=
  {| s_date := day1; s_time := midnight;
     e_date := day31; e_time := midnight;
     text := default ""%string (d !! "text"%string);
     status := default ""%string (d !! "status"%string) |}.

(** Midnight UTC of the [n]th of January 2013 (and beyond, for [n > 31]). *)
Definition jan (n : Z) : instant := 1356998400 + (n - 1) * 86400.

Definition inc (k : Z) (d : instant) (c : option instant) (s : string)
  : Incident :=
  {| i_id := k; i_date := d; i_closed := c; i_detail := s |}.

Definition link (k svc i : Z) : Service_Issue :=
  {| si_id := k; si_service_id := svc; si_incident_id := i |}.

Definition rep (k : Z) (d : instant) (s : string) : Report :=
  {| r_id := k; r_date := d; r_name := "ann"; r_email := "ann@example.org";
     r_description := s; r_additional := ""; r_screenshot1 := "";
     r_screenshot2 := "" |}.

(** Incident 1 is open and linked to two services, incident 2 is closed,
    incident 3 is outside January, incident 4 has no service. *)
Definition store : database :=
  {| incidents :=
       [ inc 1 (jan 10) None "disk failure";
         inc 2 (jan 20) (Some (jan 21)) "network failure";
         inc 3 (jan 40) None "disk failure";
         inc 4 (jan 12) None "disk failure" ];
     service_issues := [ link 1 7 1; link 2 8 1; link 3 7 2; link 4 7 3 ];
     reports := [ rep 1 (jan 5) "slow disk"; rep 2 (jan 6) "slow network" ] |}.

Definition world0 : world :=
  {| db := store; active_tz := None; queries := [] |}.

Definition post (fields cookies : list (string * string)) : HttpRequest :=
  {| method := "POST"; POST := list_to_map fields;
     COOKIES := list_to_map cookies |}.

Definition get (cookies : list (string * string)) : HttpRequest :=
  {| method := "GET"; POST := ∅; COOKIES := list_to_map cookies |}.

(** The rows of incidents 1 and 2, and of the two reports. *)
Definition row_disk : ORM.IncidentRow :=
  {| ORM.incident__date := jan 10; ORM.incident_id := 1;
     ORM.incident__closed := None; ORM.incident__detail := "disk failure" |}.

Definition row_network : ORM.IncidentRow :=
  {| ORM.incident__date := jan 20; ORM.incident_id := 2;
     ORM.incident__closed := Some (jan 21);
     ORM.incident__detail := "network failure" |}.

Definition row_slow_disk : ORM.ReportRow :=
  ORM.report_values (rep 1 (jan 5) "slow disk").

Definition row_slow_network : ORM.ReportRow :=
  ORM.report_values (rep 2 (jan 6) "slow network").

(** Submissions: any status, open, closed under another zone, one that
    fails validation, and one under a zone name that does not exist. *)
Definition req_any : HttpRequest :=
  post [("s_date", "2013-01-01"); ("text", "failure")]%string [].

Definition req_open : HttpRequest :=
  post [("s_date", "2013-01-01"); ("text", "failure"); ("status", "open")]%string
       [].

Definition req_closed : HttpRequest :=
  post [("s_date", "2013-01-01"); ("text", "failure"); ("status", "closed")]%string
       [("timezone", "Etc/GMT-3")]%string.

Definition req_invalid : HttpRequest :=
  post [("text", "failure")]%string [].

Definition req_mars : HttpRequest :=
  post [("s_date", "2013-01-01")]%string [("timezone", "Mars/Phobos")]%string.

Definition req_slow : HttpRequest :=
  post [("s_date", "2013-01-01"); ("text", "slow"); ("status", "closed")]%string
       [("timezone", "Etc/GMT-3")]%string.

Definition search := search TIME_ZONE pytz_timezone SearchForm_errors SearchForm_cleaned.
Definition rsearch := rsearch TIME_ZONE pytz_timezone SearchForm_errors SearchForm_cleaned.
Definition rsearch_recent := rsearch_recent TIME_ZONE pytz_timezone.

End Fixture.

Example fixture_search :
  incident_rows (Fixture.search Fixture.req_any Fixture.world0)
  = Some [Fixture.row_network; Fixture.row_disk].
Proof. vm_compute. reflexivity. Qed.

Example fixture_search_open :
  incident_rows (Fixture.search Fixture.req_open Fixture.world0)
  = Some [Fixture.row_disk].
Proof. vm_compute. reflexivity. Qed.

Example fixture_search_closed :
  incident_rows (Fixture.search Fixture.req_closed Fixture.world0)
  = Some [Fixture.row_network].
Proof. vm_compute. reflexivity. Qed.

Example fixture_rsearch :
  report_rows (Fixture.rsearch Fixture.req_slow Fixture.world0)
  = Some [Fixture.row_slow_network; Fixture.row_slow_disk].
Proof. vm_compute. reflexivity. Qed.

Example fixture_rsearch_recent :
  report_rows (Fixture.rsearch_recent (Fixture.get []) Fixture.world0)
  = Some [Fixture.row_slow_network; Fixture.row_slow_disk].
Proof. vm_compute. reflexivity. Qed.

Example fixture_localize :
  localize (Fixture.fixed_zone "UTC" 0) (combine Fixture.day1 Fixture.midnight)
  = Fixture.jan 1.
Proof. reflexivity. Qed.

(** * Properties *)

(** ** The [contains] lookup decides the substring relation *)

Module StrFacts.
Import Str.

Lemma prefix_inv (p s : string) :
  String.prefix p s = true ↔ ∃ rest : string, s = p +:+ rest.
Proof.
  revert p. induction s as [|c s IH]; intros [|a p]; simpl.
  - split; [by exists EmptyString | done].
  - split; [done | by intros [? ?]].
  - split; [by eexists | done].
  - destruct (Ascii.ascii_dec a c) as [->|Hne].
    + rewrite IH. split.
      * intros [rest ->]. by exists rest.
      * intros [rest [= ->]]. by exists rest.
    + split; [done | intros [rest [=]]; congruence].
Qed.

Lemma contains_nil (needle : string) :
  contains needle "" = String.prefix needle "".
Proof. unfold contains. apply orb_false_r. Qed.

Lemma contains_cons (needle : string) (c : Ascii.ascii) (hay : string) :
  contains needle (String c hay)
  = String.prefix needle (String c hay) || contains needle hay.
Proof. reflexivity. Qed.

Lemma contains_spec (needle hay : string) :
  contains needle hay = true ↔ substring_of needle hay.
Proof.
  unfold substring_of. induction hay as [|c hay IH].
  - rewrite contains_nil, prefix_inv. split.
    + intros [rest E]. by exists EmptyString, rest.
    + intros ([|? ?] & after & E); simpl in E; [by exists after | done].
  - rewrite contains_cons, orb_true_iff, prefix_inv, IH. split.
    + intros [[rest E] | (before & after & E)].
      * by exists EmptyString, rest.
      * exists (String c before), after. simpl. by rewrite E.
    + intros ([|b before] & after & E); simpl in E.
      * left. by exists after.
      * right. injection E as -> ->. by exists before, after.
Qed.

End StrFacts.

(** ** Orderings *)

Lemma elem_of_merge_sort {A} (R : relation A) `{∀ x y, Decision (R x y)}
    (l : list A) (x : A) :
  x ∈ merge_sort R l ↔ x ∈ l.
Proof. by rewrite merge_sort_Permutation. Qed.

(** ** Query sets *)

Module ORMFacts.
Import ORM.

Lemma in_range_spec (lo hi d : instant) :
  in_range lo hi d = true ↔ lo ≤ d ≤ hi.
Proof.
  unfold in_range.
  rewrite andb_true_iff, !bool_decide_eq_true. done.
Qed.

Lemma isnull_true {A} (x : option A) :
  isnull (PyBool true) x = true ↔ x = None.
Proof. destruct x; simpl; split; done. Qed.

Lemma isnull_false {A} (x : option A) :
  isnull (PyBool false) x = true ↔ x ≠ None.
Proof. destruct x; simpl; split; done. Qed.

Lemma elem_of_join (sis : list Service_Issue) (incs : list Incident)
    (si : Service_Issue) (i : Incident) :
  (si, i) ∈ join sis incs ↔
  si ∈ sis ∧ i ∈ incs ∧ i_id i = si_incident_id si.
Proof.
  unfold join. rewrite list_elem_of_bind. split.
  - intros (si' & Hin & Hsi).
    apply list_elem_of_fmap in Hin as (i' & [= -> ->] & Hi).
    apply list_elem_of_filter in Hi as [? ?]. done.
  - intros (Hsi & Hi & E). exists si. split; [|done].
    apply list_elem_of_fmap. exists i. split; [done|].
    by apply list_elem_of_filter.
Qed.

End ORMFacts.

(** ** Running the views *)

Section ViewFacts.

Variable TIME_ZONE : string.
Variable pytz_timezone : string → option tzinfo.
Variable SearchForm_errors : gmap string string → gmap string (list string).
Variable SearchForm_cleaned : gmap string string → cleaned.

Local Abbreviation search :=
  (search TIME_ZONE pytz_timezone SearchForm_errors SearchForm_cleaned).
Local Abbreviation rsearch :=
  (rsearch TIME_ZONE pytz_timezone SearchForm_errors SearchForm_cleaned).
Local Abbreviation rsearch_recent := (rsearch_recent TIME_ZONE pytz_timezone).
Local Abbreviation set_timezone := (set_timezone TIME_ZONE).
Local Abbreviation is_valid := (is_valid SearchForm_errors).
Local Abbreviation errors := (errors SearchForm_errors).
Local Abbreviation start_of := (start_of SearchForm_cleaned).
Local Abbreviation end_of := (end_of SearchForm_cleaned).

Implicit Types (request : HttpRequest) (w : world) (tz : tzinfo).

Lemma elem_of_Service_Issue_filter ci lo hi txt d (row : ORM.IncidentRow) :
  row ∈ Service_Issue_filter ci lo hi txt d ↔
  ∃ si i, si ∈ service_issues d ∧ i ∈ incidents d ∧
          i_id i = si_incident_id si ∧
          row = ORM.incident_values (si, i) ∧
          match ci with
          | Some v => ORM.isnull v (i_closed i) = true
          | None => True
          end ∧
          lo ≤ i_date i ≤ hi ∧
          Str.substring_of txt (i_detail i).
Proof.
  unfold Service_Issue_filter.
  rewrite elem_of_merge_sort, elem_of_remove_dups, list_elem_of_fmap.
  split.
  - intros ([si i] & -> & Hin).
    apply list_elem_of_filter in Hin as [Hm Hj].
    apply ORMFacts.elem_of_join in Hj as (? & ? & ?).
    simpl in Hm. apply andb_true_iff in Hm as [Hm Ht].
    apply andb_true_iff in Hm as [Hc Hr].
    apply ORMFacts.in_range_spec in Hr.
    apply StrFacts.contains_spec in Ht.
    exists si, i. split_and!; try done; try lia. by destruct ci.
  - intros (si & i & ? & ? & ? & -> & Hc & Hr & Ht).
    exists (si, i). split; [done|].
    apply list_elem_of_filter. split; [|by apply ORMFacts.elem_of_join].
    simpl. rewrite !andb_true_iff.
    rewrite ORMFacts.in_range_spec, StrFacts.contains_spec.
    split_and!; try done; try lia. by destruct ci.
Qed.

Lemma NoDup_Service_Issue_filter ci lo hi txt d :
  NoDup (Service_Issue_filter ci lo hi txt d).
Proof.
  unfold Service_Issue_filter.
  rewrite merge_sort_Permutation. apply NoDup_remove_dups.
Qed.

Lemma Sorted_Service_Issue_filter ci lo hi txt d :
  StronglySorted by_date_desc (Service_Issue_filter ci lo hi txt d).
Proof. apply StronglySorted_merge_sort; apply _. Qed.

Lemma elem_of_Report_filter lo hi txt d (row : ORM.ReportRow) :
  row ∈ Report_filter lo hi txt d ↔
  ∃ r, r ∈ reports d ∧ row = ORM.report_values r ∧
       lo ≤ r_date r ≤ hi ∧ Str.substring_of txt (r_description r).
Proof.
  unfold Report_filter.
  rewrite elem_of_merge_sort, list_elem_of_fmap.
  split.
  - intros (r & -> & Hin).
    apply list_elem_of_filter in Hin as [Hm Hr].
    apply andb_true_iff in Hm as [Hd Ht].
    apply ORMFacts.in_range_spec in Hd.
    apply StrFacts.contains_spec in Ht. by exists r.
  - intros (r & ? & -> & Hd & Ht). exists r. split; [done|].
    apply list_elem_of_filter. split; [|done].
    apply andb_true_iff.
    by rewrite ORMFacts.in_range_spec, StrFacts.contains_spec.
Qed.

(** A valid submission whose time zone is known: the results page. *)
Lemma search_valid request w tz :
  method request = "POST"%string →
  is_valid (SearchForm (Some (POST request))) = true →
  pytz_timezone (set_timezone request) = Some tz →
  search request w =
  Returned
    {| template := "search/search_results.html";
       context :=
         {| title := "SSD Search Results";
            results := Some (IncidentRows
              (Service_Issue_filter
                 (closed_isnull_of (status (SearchForm_cleaned (POST request))))
                 (start_of request tz) (end_of request tz)
                 (text (SearchForm_cleaned (POST request))) (db w)));
            form := Some (SearchForm (Some (POST request))) |} |}
    (logged Service_Issue_objects tz w).
Proof.
  intros Hm Hv Htz. unfold search.
  rewrite bool_decide_eq_true_2 by done. rewrite Hv.
  unfold bind, timezone, activate, bind, timezone. rewrite Htz.
  unfold closed_isnull_of, start_of, end_of, cleaned_data, py_eq_str.
  simpl.
  destruct (status (SearchForm_cleaned (POST request))) as [|c s] eqn:Est.
  - reflexivity.
  - repeat case_bool_decide; simplify_eq; simpl; try reflexivity.
Qed.

Lemma rsearch_valid request w tz :
  method request = "POST"%string →
  is_valid (SearchForm (Some (POST request))) = true →
  pytz_timezone (set_timezone request) = Some tz →
  rsearch request w =
  Returned
    {| template := "search/rsearch_results.html";
       context :=
         {| title := "SSD Incident Report Results";
            results := Some (ReportRows
              (Report_filter (start_of request tz) (end_of request tz)
                 (text (SearchForm_cleaned (POST request))) (db w)));
            form := Some (SearchForm (Some (POST request))) |} |}
    (logged Report_objects tz w).
Proof.
  intros Hm Hv Htz. unfold rsearch.
  rewrite bool_decide_eq_true_2 by done. rewrite Hv.
  unfold bind, timezone, activate, bind, timezone. rewrite Htz.
  reflexivity.
Qed.

(** A valid submission under a time zone name that [pytz] does not know:
    the lookup raises before any query set is built. *)
Lemma search_unknown_timezone request w :
  method request = "POST"%string →
  is_valid (SearchForm (Some (POST request))) = true →
  pytz_timezone (set_timezone request) = None →
  search request w = Raised (UnknownTimeZoneError (set_timezone request)) w.
Proof.
  intros Hm Hv Htz. unfold search.
  rewrite bool_decide_eq_true_2 by done. rewrite Hv.
  unfold bind, timezone. rewrite Htz. reflexivity.
Qed.

Lemma rsearch_unknown_timezone request w :
  method request = "POST"%string →
  is_valid (SearchForm (Some (POST request))) = true →
  pytz_timezone (set_timezone request) = None →
  rsearch request w = Raised (UnknownTimeZoneError (set_timezone request)) w.
Proof.
  intros Hm Hv Htz. unfold rsearch.
  rewrite bool_decide_eq_true_2 by done. rewrite Hv.
  unfold bind, timezone. rewrite Htz. reflexivity.
Qed.

(** A submission that fails validation: the form page, with the bound form. *)
Lemma search_invalid request w :
  method request = "POST"%string →
  is_valid (SearchForm (Some (POST request))) = false →
  search request w =
  Returned
    {| template := "search/search.html";
       context := {| title := "SSD Incident Search"; results := None;
                     form := Some (SearchForm (Some (POST request))) |} |} w.
Proof.
  intros Hm Hv. unfold search.
  rewrite bool_decide_eq_true_2 by done. by rewrite Hv.
Qed.

Lemma rsearch_invalid request w :
  method request = "POST"%string →
  is_valid (SearchForm (Some (POST request))) = false →
  rsearch request w =
  Returned
    {| template := "search/rsearch.html";
       context := {| title := "SSD Incident Report Search"; results := None;
                     form := Some (SearchForm (Some (POST request))) |} |} w.
Proof.
  intros Hm Hv. unfold rsearch.
  rewrite bool_decide_eq_true_2 by done. by rewrite Hv.
Qed.

(** Any other method: the form page, with a blank form. *)
Lemma search_get request w :
  method request ≠ "POST"%string →
  search request w =
  Returned
    {| template := "search/search.html";
       context := {| title := "SSD Incident Search"; results := None;
                     form := Some (SearchForm None) |} |} w.
Proof. intros Hm. unfold search. by rewrite bool_decide_eq_false_2. Qed.

Lemma rsearch_get request w :
  method request ≠ "POST"%string →
  rsearch request w =
  Returned
    {| template := "search/rsearch.html";
       context := {| title := "SSD Incident Report Search"; results := None;
                     form := Some (SearchForm None) |} |} w.
Proof. intros Hm. unfold rsearch. by rewrite bool_decide_eq_false_2. Qed.

Lemma rsearch_recent_known request w tz :
  pytz_timezone (set_timezone request) = Some tz →
  rsearch_recent request w =
  Returned
    {| template := "search/rsearch_results.html";
       context := {| title := "SSD Incident Report Results";
                     results := Some (ReportRows (Report_recent (db w)));
                     form := None |} |}
    (logged Report_objects tz w).
Proof.
  intros Htz. unfold rsearch_recent, bind, activate, bind, timezone.
  rewrite Htz. reflexivity.
Qed.

Lemma rsearch_recent_unknown_timezone request w :
  pytz_timezone (set_timezone request) = None →
  rsearch_recent request w
  = Raised (UnknownTimeZoneError (set_timezone request)) w.
Proof.
  intros Htz. unfold rsearch_recent, bind, activate, bind, timezone.
  rewrite Htz. reflexivity.
Qed.

(** The rows of a valid incident search are those of the query set, under
    the zone of the settled name. *)
Lemma search_rows request w rows :
  method request = "POST"%string →
  is_valid (SearchForm (Some (POST request))) = true →
  incident_rows (search request w) = Some rows →
  ∃ tz, pytz_timezone (set_timezone request) = Some tz ∧
        rows = Service_Issue_filter
                 (closed_isnull_of (status (SearchForm_cleaned (POST request))))
                 (start_of request tz) (end_of request tz)
                 (text (SearchForm_cleaned (POST request))) (db w).
Proof.
  intros Hm Hv Hrows.
  destruct (pytz_timezone (set_timezone request)) as [tz|] eqn:Htz.
  - rewrite (search_valid _ _ tz) in Hrows by done.
    injection Hrows as <-. by exists tz.
  - by rewrite search_unknown_timezone in Hrows.
Qed.

Lemma rsearch_rows request w rows :
  method request = "POST"%string →
  is_valid (SearchForm (Some (POST request))) = true →
  report_rows (rsearch request w) = Some rows →
  ∃ tz, pytz_timezone (set_timezone request) = Some tz ∧
        rows = Report_filter (start_of request tz) (end_of request tz)
                 (text (SearchForm_cleaned (POST request))) (db w).
Proof.
  intros Hm Hv Hrows.
  destruct (pytz_timezone (set_timezone request)) as [tz|] eqn:Htz.
  - rewrite (rsearch_valid _ _ tz) in Hrows by done.
    injection Hrows as <-. by exists tz.
  - by rewrite rsearch_unknown_timezone in Hrows.
Qed.

(** ** Incident search *)

(** C1. A valid submission whose status is empty: every row of the result
    set has its incident date between the localized start and end, both
    included, and its detail contains the submitted text.  No row is left
    out for its open or closed state: every linked incident that is in
    range and has the text is among the rows. *)
Theorem C1_search_rows_in_range_with_text request w rows :
  method request = "POST"%string →
  is_valid (SearchForm (Some (POST request))) = true →
  status (SearchForm_cleaned (POST request)) = ""%string →
  incident_rows (search request w) = Some rows →
  ∃ tz, pytz_timezone (set_timezone request) = Some tz ∧
    (∀ row, row ∈ rows →
       start_of request tz ≤ ORM.incident__date row ≤ end_of request tz ∧
       Str.substring_of (text (SearchForm_cleaned (POST request)))
         (ORM.incident__detail row)) ∧
    (∀ si i, si ∈ service_issues (db w) → i ∈ incidents (db w) →
       i_id i = si_incident_id si →
       start_of request tz ≤ i_date i ≤ end_of request tz →
       Str.substring_of (text (SearchForm_cleaned (POST request))) (i_detail i) →
       ORM.incident_values (si, i) ∈ rows).
Proof.
  intros Hm Hv Hst Hrows.
  destruct (search_rows _ _ _ Hm Hv Hrows) as (tz & Htz & ->).
  exists tz. split; [done|]. rewrite Hst. split.
  - intros row Hrow.
    apply elem_of_Service_Issue_filter
      in Hrow as (si & i & _ & _ & _ & -> & _ & Hr & Ht).
    done.
  - intros si i Hsi Hi Hlink Hr Ht.
    apply elem_of_Service_Issue_filter. exists si, i. done.
Qed.

(** C2. A valid submission: with status [open] every row has a null closed
    timestamp, with status [closed] every row has a closed timestamp. *)
Theorem C2_search_status_open_closed request w rows :
  method request = "POST"%string →
  is_valid (SearchForm (Some (POST request))) = true →
  incident_rows (search request w) = Some rows →
  (status (SearchForm_cleaned (POST request)) = "open"%string →
   ∀ row, row ∈ rows → ORM.incident__closed row = None) ∧
  (status (SearchForm_cleaned (POST request)) = "closed"%string →
   ∀ row, row ∈ rows → ORM.incident__closed row ≠ None).
Proof.
  intros Hm Hv Hrows.
  destruct (search_rows _ _ _ Hm Hv Hrows) as (tz & Htz & ->).
  split; intros Hst row Hrow; rewrite Hst in Hrow;
    apply elem_of_Service_Issue_filter
      in Hrow as (si & i & _ & _ & _ & -> & Hc & _); simpl in *.
  - by apply ORMFacts.isnull_true.
  - by apply ORMFacts.isnull_false.
Qed.

(** Rows of one incident id are one row, when incident ids are a key. *)
Lemma Service_Issue_filter_id_inj ci lo hi txt d (r1 r2 : ORM.IncidentRow) :
  NoDup (i_id <$> incidents d) →
  r1 ∈ Service_Issue_filter ci lo hi txt d →
  r2 ∈ Service_Issue_filter ci lo hi txt d →
  ORM.incident_id r1 = ORM.incident_id r2 → r1 = r2.
Proof.
  intros Hkey H1 H2 E.
  apply elem_of_Service_Issue_filter in H1 as (s1 & i1 & _ & Hi1 & L1 & -> & _).
  apply elem_of_Service_Issue_filter in H2 as (s2 & i2 & _ & Hi2 & L2 & -> & _).
  simpl in E. unfold ORM.incident_values. simpl.
  assert (i1 = i2) as ->; [|by rewrite E].
  apply list_elem_of_lookup in Hi1 as [k1 Hk1].
  apply list_elem_of_lookup in Hi2 as [k2 Hk2].
  assert (k1 = k2) as ->; [|congruence].
  eapply NoDup_lookup; [exact Hkey | |].
  - rewrite list_lookup_fmap, Hk1. reflexivity.
  - rewrite list_lookup_fmap, Hk2. simpl. congruence.
Qed.

(** C4. A valid submission: the result set has no duplicate rows, is in
    descending order of incident date, and, incident ids being a key of the
    incident table, holds each incident at most once, however many services
    it is linked to. *)
Theorem C4_search_distinct_sorted request w rows :
  method request = "POST"%string →
  is_valid (SearchForm (Some (POST request))) = true →
  incident_rows (search request w) = Some rows →
  NoDup rows ∧
  StronglySorted by_date_desc rows ∧
  (NoDup (i_id <$> incidents (db w)) → NoDup (ORM.incident_id <$> rows)).
Proof.
  intros Hm Hv Hrows.
  destruct (search_rows _ _ _ Hm Hv Hrows) as (tz & Htz & ->).
  split_and!.
  - apply NoDup_Service_Issue_filter.
  - apply Sorted_Service_Issue_filter.
  - intros Hkey. apply NoDup_fmap_2_strong.
    + intros r1 r2. by apply Service_Issue_filter_id_inj.
    + apply NoDup_Service_Issue_filter.
Qed.

(** C9. A valid submission: every row is the row of an incident together
    with a [Service_Issue] that links it, and an incident that no
    [Service_Issue] links has no row, whatever its date, detail and state. *)
Theorem C9_search_only_linked_incidents request w rows :
  method request = "POST"%string →
  is_valid (SearchForm (Some (POST request))) = true →
  incident_rows (search request w) = Some rows →
  (∀ row, row ∈ rows →
     ∃ si i, si ∈ service_issues (db w) ∧ i ∈ incidents (db w) ∧
             si_incident_id si = i_id i ∧
             row = ORM.incident_values (si, i)) ∧
  (∀ i, i ∈ incidents (db w) →
     (∀ si, si ∈ service_issues (db w) → si_incident_id si ≠ i_id i) →
     ∀ row, row ∈ rows → ORM.incident_id row ≠ i_id i).
Proof.
  intros Hm Hv Hrows.
  destruct (search_rows _ _ _ Hm Hv Hrows) as (tz & Htz & ->).
  split.
  - intros row Hrow.
    apply elem_of_Service_Issue_filter
      in Hrow as (si & i & ? & ? & ? & -> & _).
    by exists si, i.
  - intros i Hi Hnone row Hrow.
    apply elem_of_Service_Issue_filter
      in Hrow as (si & i' & Hsi & _ & _ & -> & _).
    simpl. by apply Hnone.
Qed.

(** ** Report search *)

(** C5. A valid submission to the report search: every row has its date
    between the localized bounds, both included, and its description
    contains the text; the rows are in descending order of id; and nothing
    else filters the reports: every report in range that has the text is
    among the rows, whatever status was submitted. *)
Theorem C5_rsearch_rows_in_range_sorted request w rows :
  method request = "POST"%string →
  is_valid (SearchForm (Some (POST request))) = true →
  report_rows (rsearch request w) = Some rows →
  ∃ tz, pytz_timezone (set_timezone request) = Some tz ∧
    (∀ row, row ∈ rows →
       start_of request tz ≤ ORM.date_ row ≤ end_of request tz ∧
       Str.substring_of (text (SearchForm_cleaned (POST request)))
         (ORM.description row)) ∧
    StronglySorted by_id_desc rows ∧
    (∀ r, r ∈ reports (db w) →
       start_of request tz ≤ r_date r ≤ end_of request tz →
       Str.substring_of (text (SearchForm_cleaned (POST request)))
         (r_description r) →
       ORM.report_values r ∈ rows).
Proof.
  intros Hm Hv Hrows.
  destruct (rsearch_rows _ _ _ Hm Hv Hrows) as (tz & Htz & ->).
  exists tz. split_and!; [done | | |].
  - intros row Hrow.
    apply elem_of_Report_filter in Hrow as (r & _ & -> & Hr & Ht). done.
  - apply StronglySorted_merge_sort; apply _.
  - intros r Hin Hr Ht. apply elem_of_Report_filter. by exists r.
Qed.

(** ** Validation failures *)

Lemma invalid_has_errors (d : gmap string string) :
  is_valid (SearchForm (Some d)) = false → errors (SearchForm (Some d)) ≠ ∅.
Proof.
  unfold is_valid. simpl. intros Hv E.
  by rewrite bool_decide_eq_true_2 in Hv.
Qed.

(** C6. A submission that fails validation, to the incident search or to
    the report search: the view returns, the page is the input form
    ([search/search.html], [search/rsearch.html]) with the bound form, whose
    error dictionary is not empty, and no query set was built. *)
Theorem C6_invalid_form_rerendered request w :
  method request = "POST"%string →
  is_valid (SearchForm (Some (POST request))) = false →
  errors (SearchForm (Some (POST request))) ≠ ∅ ∧
  search request w =
    Returned
      {| template := "search/search.html";
         context := {| title := "SSD Incident Search"; results := None;
                       form := Some (SearchForm (Some (POST request))) |} |} w ∧
  rsearch request w =
    Returned
      {| template := "search/rsearch.html";
         context := {| title := "SSD Incident Report Search"; results := None;
                       form := Some (SearchForm (Some (POST request))) |} |} w ∧
  queries (final (search request w)) = queries w ∧
  queries (final (rsearch request w)) = queries w.
Proof.
  intros Hm Hv.
  rewrite search_invalid, rsearch_invalid by done.
  split_and!; try reflexivity. by apply invalid_has_errors.
Qed.

(** ** The time zone *)

Lemma set_timezone_default request :
  set_timezone request
  = default TIME_ZONE (COOKIES request !! "timezone"%string).
Proof. unfold set_timezone. by destruct (_ !! _). Qed.

(** C7. In each of the three views the zone under which the bounds are
    localized and which is activated for rendering is the zone of the
    [timezone] cookie when the request has one and of [settings.TIME_ZONE]
    otherwise; and a view raises only when that name is unknown. *)
Theorem C7_timezone_cookie_or_default request w :
  let name := default TIME_ZONE (COOKIES request !! "timezone"%string) in
  (∀ resp w', search request w = Returned resp w' →
     results (context resp) ≠ None →
     ∃ tz, pytz_timezone name = Some tz ∧ active_tz w' = Some tz ∧
       results (context resp) = Some (IncidentRows
         (Service_Issue_filter
            (closed_isnull_of (status (SearchForm_cleaned (POST request))))
            (start_of request tz) (end_of request tz)
            (text (SearchForm_cleaned (POST request))) (db w)))) ∧
  (∀ resp w', rsearch request w = Returned resp w' →
     results (context resp) ≠ None →
     ∃ tz, pytz_timezone name = Some tz ∧ active_tz w' = Some tz ∧
       results (context resp) = Some (ReportRows
         (Report_filter (start_of request tz) (end_of request tz)
            (text (SearchForm_cleaned (POST request))) (db w)))) ∧
  (∀ resp w', rsearch_recent request w = Returned resp w' →
     ∃ tz, pytz_timezone name = Some tz ∧ active_tz w' = Some tz) ∧
  (∀ e w', search request w = Raised e w' ∨ rsearch request w = Raised e w' ∨
           rsearch_recent request w = Raised e w' →
     e = UnknownTimeZoneError name).
Proof.
  intros name. subst name. rewrite <- set_timezone_default.
  destruct (pytz_timezone (set_timezone request)) as [tz|] eqn:Htz;
    [rewrite (rsearch_recent_known _ _ tz) by done
    |rewrite rsearch_recent_unknown_timezone by done];
  (destruct (decide (method request = "POST"%string)) as [Hm|Hm];
    [destruct (is_valid (SearchForm (Some (POST request)))) eqn:Hv;
      [first [rewrite (search_valid _ _ tz), (rsearch_valid _ _ tz) by done
             |rewrite search_unknown_timezone, rsearch_unknown_timezone by done]
      |rewrite search_invalid, rsearch_invalid by done]
    |rewrite search_get, rsearch_get by done]);
  (split_and!;
    [intros resp w' [= <- <-] Hres; try done; by exists tz
    |intros resp w' [= <- <-] Hres; try done; by exists tz
    |intros resp w' [= <- <-]; by exists tz
    |intros e w' [H|[H|H]]; by simplify_eq]).
Qed.

(** C10. The cookie is not validated: a valid submission, to the incident
    search or to the report search, of a request whose [timezone] cookie is
    a name that [pytz] does not know raises [UnknownTimeZoneError] from the
    lookup, and no page is rendered. *)
Theorem C10_unknown_timezone_cookie_raises request w (name : string) :
  method request = "POST"%string →
  is_valid (SearchForm (Some (POST request))) = true →
  COOKIES request !! "timezone"%string = Some name →
  pytz_timezone name = None →
  search request w = Raised (UnknownTimeZoneError name) w ∧
  rsearch request w = Raised (UnknownTimeZoneError name) w ∧
  response (search request w) = None ∧
  response (rsearch request w) = None.
Proof.
  intros Hm Hv Hc Htz.
  assert (set_timezone request = name) as Hn.
  { rewrite set_timezone_default, Hc. reflexivity. }
  rewrite search_unknown_timezone, rsearch_unknown_timezone
    by (done || by rewrite Hn).
  by rewrite Hn.
Qed.

(** ** Recent reports *)

Lemma Report_recent_length d :
  length (Report_recent d) = (5 `min` length (reports d))%nat.
Proof.
  unfold Report_recent.
  by rewrite length_take, merge_sort_Permutation, length_fmap.
Qed.

Lemma Report_recent_sorted d : StronglySorted by_id_desc (Report_recent d).
Proof.
  unfold Report_recent.
  set (l := merge_sort _ _).
  assert (StronglySorted by_id_desc l) as Hl
    by (apply StronglySorted_merge_sort; apply _).
  rewrite <- (take_drop 5 l) in Hl.
  by apply StronglySorted_app in Hl as (_ & ? & _).
Qed.

Lemma Report_recent_submseteq d :
  Report_recent d ⊆+ ORM.report_values <$> reports d.
Proof.
  unfold Report_recent.
  etrans; [apply sublist_submseteq, sublist_take|].
  apply Permutation_submseteq, merge_sort_Permutation.
Qed.

(** What [[:5]] leaves out has no higher id than what it keeps. *)
Lemma Report_recent_highest d (r : Report) (row : ORM.ReportRow) :
  r ∈ reports d → ORM.report_values r ∉ Report_recent d →
  row ∈ Report_recent d →
  ORM.id (ORM.report_values r) ≤ ORM.id row.
Proof.
  unfold Report_recent. set (l := merge_sort _ _).
  intros Hr Hout Hrow.
  assert (StronglySorted by_id_desc l) as Hl
    by (apply StronglySorted_merge_sort; apply _).
  assert (ORM.report_values r ∈ l) as Hin.
  { apply elem_of_merge_sort. by apply list_elem_of_fmap_2. }
  rewrite <- (take_drop 5 l) in Hl, Hin.
  apply StronglySorted_app in Hl as (Hle & _ & _).
  apply elem_of_app in Hin as [Hin|Hin]; [done|].
  exact (Hle _ _ Hrow Hin).
Qed.

(** C3, as the code has it. When the settled time zone name is known, the
    recent report view returns, for every method and every submitted data,
    the reports of highest id in descending order of id: five of them, or
    all of them when the store holds fewer than five. *)
Theorem C3_rsearch_recent_highest_ids request w tz :
  pytz_timezone (set_timezone request) = Some tz →
  ∃ rows, report_rows (rsearch_recent request w) = Some rows ∧
    length rows = (5 `min` length (reports (db w)))%nat ∧
    StronglySorted by_id_desc rows ∧
    rows ⊆+ ORM.report_values <$> reports (db w) ∧
    (∀ r row, r ∈ reports (db w) → ORM.report_values r ∉ rows →
       row ∈ rows → ORM.id (ORM.report_values r) ≤ ORM.id row).
Proof.
  intros Htz. exists (Report_recent (db w)).
  rewrite (rsearch_recent_known _ _ tz) by done.
  split_and!.
  - reflexivity.
  - apply Report_recent_length.
  - apply Report_recent_sorted.
  - apply Report_recent_submseteq.
  - intros r row. apply Report_recent_highest.
Qed.

(** C8, as the code has it. Two requests to the recent report view whose
    time zone names are both known, over the same reports, both get a
    result set, and it is the same one, whatever their methods, form fields
    and cookies. *)
Theorem C8_rsearch_recent_same_rows request1 request2 w1 w2 tz1 tz2 :
  reports (db w1) = reports (db w2) →
  pytz_timezone (set_timezone request1) = Some tz1 →
  pytz_timezone (set_timezone request2) = Some tz2 →
  ∃ rows, report_rows (rsearch_recent request1 w1) = Some rows ∧
          report_rows (rsearch_recent request2 w2) = Some rows.
Proof.
  intros Hdb Htz1 Htz2.
  rewrite (rsearch_recent_known _ _ tz1), (rsearch_recent_known _ _ tz2) by done.
  exists (Report_recent (db w1)). split; [reflexivity|].
  unfold report_rows, Report_recent. simpl. by rewrite Hdb.
Qed.

End ViewFacts.

(** ** The properties on the concrete installation *)

Section OnFixture.

Import Fixture.

Local Abbreviation set_timezone := (set_timezone TIME_ZONE).
Local Abbreviation start_of := (start_of SearchForm_cleaned).
Local Abbreviation end_of := (end_of SearchForm_cleaned).
Local Abbreviation errors := (errors SearchForm_errors).

(** C1 on a submission with empty status: both linked incidents of January
    with the text are returned, the open one and the closed one. *)
Lemma C1_witness :
  ∃ tz, pytz_timezone (set_timezone req_any) = Some tz ∧
    (∀ row, row ∈ [row_network; row_disk] →
       start_of req_any tz ≤ ORM.incident__date row ≤ end_of req_any tz ∧
       Str.substring_of (text (SearchForm_cleaned (POST req_any)))
         (ORM.incident__detail row)) ∧
    (∀ si i, si ∈ service_issues (db world0) → i ∈ incidents (db world0) →
       i_id i = si_incident_id si →
       start_of req_any tz ≤ i_date i ≤ end_of req_any tz →
       Str.substring_of (text (SearchForm_cleaned (POST req_any))) (i_detail i) →
       ORM.incident_values (si, i) ∈ [row_network; row_disk]).
Proof.
  apply (C1_search_rows_in_range_with_text
           TIME_ZONE pytz_timezone SearchForm_errors SearchForm_cleaned
           req_any world0);
    vm_compute; reflexivity.
Defined.

(** C2 on a submission with status [open]. *)
Lemma C2_witness :
  (status (SearchForm_cleaned (POST req_open)) = "open"%string →
   ∀ row, row ∈ [row_disk] → ORM.incident__closed row = None) ∧
  (status (SearchForm_cleaned (POST req_open)) = "closed"%string →
   ∀ row, row ∈ [row_disk] → ORM.incident__closed row ≠ None).
Proof.
  apply (C2_search_status_open_closed
           TIME_ZONE pytz_timezone SearchForm_errors SearchForm_cleaned
           req_open world0);
    vm_compute; reflexivity.
Defined.

(** C4 on a store where incident 1 is linked to two services. *)
Lemma C4_witness :
  NoDup [row_network; row_disk] ∧
  StronglySorted by_date_desc [row_network; row_disk] ∧
  (NoDup (i_id <$> incidents (db world0)) →
   NoDup (ORM.incident_id <$> [row_network; row_disk])).
Proof.
  apply (C4_search_distinct_sorted
           TIME_ZONE pytz_timezone SearchForm_errors SearchForm_cleaned
           req_any world0);
    vm_compute; reflexivity.
Defined.

(** C9 on a store where incident 4 matches and has no service. *)
Lemma C9_witness :
  (∀ row, row ∈ [row_network; row_disk] →
     ∃ si i, si ∈ service_issues (db world0) ∧ i ∈ incidents (db world0) ∧
             si_incident_id si = i_id i ∧
             row = ORM.incident_values (si, i)) ∧
  (∀ i, i ∈ incidents (db world0) →
     (∀ si, si ∈ service_issues (db world0) → si_incident_id si ≠ i_id i) →
     ∀ row, row ∈ [row_network; row_disk] → ORM.incident_id row ≠ i_id i).
Proof.
  apply (C9_search_only_linked_incidents
           TIME_ZONE pytz_timezone SearchForm_errors SearchForm_cleaned
           req_any world0);
    vm_compute; reflexivity.
Defined.

(** C5 on a report search that submits a status and a cookie. *)
Lemma C5_witness :
  ∃ tz, pytz_timezone (set_timezone req_slow) = Some tz ∧
    (∀ row, row ∈ [row_slow_network; row_slow_disk] →
       start_of req_slow tz ≤ ORM.date_ row ≤ end_of req_slow tz ∧
       Str.substring_of (text (SearchForm_cleaned (POST req_slow)))
         (ORM.description row)) ∧
    StronglySorted by_id_desc [row_slow_network; row_slow_disk] ∧
    (∀ r, r ∈ reports (db world0) →
       start_of req_slow tz ≤ r_date r ≤ end_of req_slow tz →
       Str.substring_of (text (SearchForm_cleaned (POST req_slow)))
         (r_description r) →
       ORM.report_values r ∈ [row_slow_network; row_slow_disk]).
Proof.
  apply (C5_rsearch_rows_in_range_sorted
           TIME_ZONE pytz_timezone SearchForm_errors SearchForm_cleaned
           req_slow world0);
    vm_compute; reflexivity.
Defined.

(** C6 on a submission without a start date. *)
Lemma C6_witness :
  errors (SearchForm (Some (POST req_invalid))) ≠ ∅ ∧
  search req_invalid world0 =
    Returned
      {| template := "search/search.html";
         context := {| title := "SSD Incident Search"; results := None;
                       form := Some (SearchForm (Some (POST req_invalid))) |} |}
      world0 ∧
  rsearch req_invalid world0 =
    Returned
      {| template := "search/rsearch.html";
         context := {| title := "SSD Incident Report Search"; results := None;
                       form := Some (SearchForm (Some (POST req_invalid))) |} |}
      world0 ∧
  queries (final (search req_invalid world0)) = queries world0 ∧
  queries (final (rsearch req_invalid world0)) = queries world0.
Proof.
  apply (C6_invalid_form_rerendered
           TIME_ZONE pytz_timezone SearchForm_errors SearchForm_cleaned
           req_invalid world0);
    vm_compute; reflexivity.
Defined.

(** C10 on a request whose cookie names no zone. *)
Lemma C10_witness :
  search req_mars world0 = Raised (UnknownTimeZoneError "Mars/Phobos") world0 ∧
  rsearch req_mars world0 = Raised (UnknownTimeZoneError "Mars/Phobos") world0 ∧
  response (search req_mars world0) = None ∧
  response (rsearch req_mars world0) = None.
Proof.
  apply (C10_unknown_timezone_cookie_raises
           TIME_ZONE pytz_timezone SearchForm_errors SearchForm_cleaned
           req_mars world0 "Mars/Phobos");
    vm_compute; reflexivity.
Defined.

(** C3 as stated fails twice: a store of two reports yields two rows, not
    five, and a request whose cookie names no zone gets no rows at all. *)
Lemma C3_counterexample :
  (∃ rows, report_rows (rsearch_recent (get []) world0) = Some rows ∧
           length rows ≠ 5%nat) ∧
  rsearch_recent (get [("timezone", "Mars/Phobos")]%string) world0
  = Raised (UnknownTimeZoneError "Mars/Phobos") world0.
Proof.
  split; [|vm_compute; reflexivity].
  exists [row_slow_network; row_slow_disk].
  split; [vm_compute; reflexivity | simpl; lia].
Qed.

(** C3, as the code has it, on the store of two reports. *)
Lemma C3_witness :
  ∃ rows, report_rows (rsearch_recent (get []) world0) = Some rows ∧
    length rows = (5 `min` length (reports (db world0)))%nat ∧
    StronglySorted by_id_desc rows ∧
    rows ⊆+ ORM.report_values <$> reports (db world0) ∧
    (∀ r row, r ∈ reports (db world0) → ORM.report_values r ∉ rows →
       row ∈ rows → ORM.id (ORM.report_values r) ≤ ORM.id row).
Proof.
  apply (C3_rsearch_recent_highest_ids TIME_ZONE pytz_timezone
           (get []) world0 (fixed_zone "UTC" 0)).
  reflexivity.
Defined.

(** C8 as stated fails: over one store, a bare GET gets the two reports
    and a GET whose cookie names no zone gets no result set, the view
    raising before its query. *)
Lemma C8_counterexample :
  report_rows (rsearch_recent (get []) world0)
  = Some [row_slow_network; row_slow_disk] ∧
  rsearch_recent (get [("timezone", "Mars/Phobos")]%string) world0
  = Raised (UnknownTimeZoneError "Mars/Phobos") world0 ∧
  report_rows (rsearch_recent (get []) world0)
  ≠ report_rows
      (rsearch_recent (get [("timezone", "Mars/Phobos")]%string) world0).
Proof. split_and!; vm_compute; (reflexivity || discriminate). Qed.

(** C8, as the code has it, on a bare GET and a POST with form fields and a
    cookie of another zone. *)
Lemma C8_witness :
  ∃ rows, report_rows (rsearch_recent (get []) world0) = Some rows ∧
          report_rows (rsearch_recent req_closed world0) = Some rows.
Proof.
  apply (C8_rsearch_recent_same_rows TIME_ZONE pytz_timezone
           (get []) req_closed world0 world0
           (fixed_zone "UTC" 0) (fixed_zone "Etc/GMT-3" 10800));
    reflexivity.
Defined.

End OnFixture.

(** * Further properties of the views *)

(** ** Lists and strings *)

Lemma filter_all {A} (P : A → Prop) `{∀ x, Decision (P x)} (l : list A) :
  (∀ x, x ∈ l → P x) → filter P l = l.
Proof.
  induction l as [|x l IH]; intros Hall; [done|].
  rewrite filter_cons_True by (apply Hall; left).
  f_equal. apply IH. intros y Hy. apply Hall. by right.
Qed.

Lemma string_append_assoc (a b c : string) : (a +:+ b) +:+ c = a +:+ b +:+ c.
Proof.
  induction a as [|x a IH]; [done|].
  change (String x ((a +:+ b) +:+ c) = String x (a +:+ b +:+ c)).
  by rewrite IH.
Qed.

Lemma substring_of_empty (hay : string) : Str.substring_of "" hay.
Proof. by exists EmptyString, hay. Qed.

Lemma substring_of_trans (a b c : string) :
  Str.substring_of a b → Str.substring_of b c → Str.substring_of a c.
Proof.
  intros (p & q & ->) (p' & q' & ->).
  exists (p' +:+ p), (q +:+ q').
  by rewrite !string_append_assoc.
Qed.

(** A list in descending order of a key that has no repeated key is in
    strictly descending order. *)
Lemma StronglySorted_strict {A} (key : A → Z) (l : list A) :
  StronglySorted (λ a b, key b ≤ key a) l → NoDup (key <$> l) →
  StronglySorted (λ a b, key b < key a) l.
Proof.
  induction 1 as [|x l Hl IH Hx]; intros Hnd; [constructor|].
  rewrite fmap_cons in Hnd. apply NoDup_cons in Hnd as [Hnot Hnd].
  constructor; [by apply IH|].
  rewrite Forall_forall in *. intros y Hy.
  specialize (Hx y Hy).
  destruct (decide (key y = key x)) as [E|]; [|lia].
  destruct Hnot. rewrite <- E. by apply list_elem_of_fmap_2.
Qed.

(** ** Outcomes and effects of the views *)

Section MoreViewFacts.

Variable TIME_ZONE : string.
Variable pytz_timezone : string → option tzinfo.
Variable SearchForm_errors : gmap string string → gmap string (list string).
Variable SearchForm_cleaned : gmap string string → cleaned.

Local Abbreviation search :=
  (search TIME_ZONE pytz_timezone SearchForm_errors SearchForm_cleaned).
Local Abbreviation rsearch :=
  (rsearch TIME_ZONE pytz_timezone SearchForm_errors SearchForm_cleaned).
Local Abbreviation rsearch_recent := (rsearch_recent TIME_ZONE pytz_timezone).
Local Abbreviation set_timezone := (set_timezone TIME_ZONE).
Local Abbreviation is_valid := (is_valid SearchForm_errors).
Local Abbreviation errors := (errors SearchForm_errors).
Local Abbreviation start_of := (start_of SearchForm_cleaned).
Local Abbreviation end_of := (end_of SearchForm_cleaned).

Implicit Types (request : HttpRequest) (w : world) (tz : tzinfo).

(** The three cases of a search view, and the two of the recent view. *)
Ltac by_method request :=
  let Hm := fresh "Hm" in
  let Hv := fresh "Hv" in
  destruct (decide (method request = "POST"%string)) as [Hm|Hm];
    [destruct (is_valid (SearchForm (Some (POST request)))) eqn:Hv
    |rewrite ?search_get, ?rsearch_get by done].

Ltac by_cases request :=
  let tz := fresh "tz" in
  let Htz := fresh "Htz" in
  destruct (pytz_timezone (set_timezone request)) as [tz|] eqn:Htz;
    [rewrite ?(rsearch_recent_known _ _ _ _ tz) by done;
     by_method request;
       [rewrite ?(search_valid _ _ _ _ _ _ tz),
                ?(rsearch_valid _ _ _ _ _ _ tz) by done
       |rewrite ?search_invalid, ?rsearch_invalid by done
       |]
    |rewrite ?rsearch_recent_unknown_timezone by done;
     by_method request;
       [rewrite ?search_unknown_timezone, ?rsearch_unknown_timezone by done
       |rewrite ?search_invalid, ?rsearch_invalid by done
       |]].

(** X1. A request of any method other than POST to the incident search or
    to the report search gets the form page with a blank, unbound form; the
    cookie is not looked at, so the page is rendered under an unknown time
    zone name as well, and neither a query set is built nor a zone
    activated. *)
Theorem X1_other_method_blank_form request w :
  method request ≠ "POST"%string →
  search request w =
    Returned
      {| template := "search/search.html";
         context := {| title := "SSD Incident Search"; results := None;
                       form := Some {| is_bound := false; data := ∅ |} |} |} w ∧
  rsearch request w =
    Returned
      {| template := "search/rsearch.html";
         context := {| title := "SSD Incident Report Search"; results := None;
                       form := Some {| is_bound := false; data := ∅ |} |} |} w.
Proof. intros Hm. by rewrite search_get, rsearch_get. Qed.

(** X2. The incident search and the report search raise
    [UnknownTimeZoneError] in exactly one case: a POST whose form is valid
    under a time zone name that is not known.  The exception carries that
    name, and the world is then as it was: no query set was built and no
    zone activated. *)
Theorem X2_search_unknown_timezone_iff request w :
  ((∃ name w', search request w = Raised (UnknownTimeZoneError name) w') ↔
     method request = "POST"%string ∧
     is_valid (SearchForm (Some (POST request))) = true ∧
     pytz_timezone (set_timezone request) = None) ∧
  ((∃ name w', rsearch request w = Raised (UnknownTimeZoneError name) w') ↔
     method request = "POST"%string ∧
     is_valid (SearchForm (Some (POST request))) = true ∧
     pytz_timezone (set_timezone request) = None) ∧
  (∀ name w', search request w = Raised (UnknownTimeZoneError name) w' →
     name = set_timezone request ∧ w' = w) ∧
  (∀ name w', rsearch request w = Raised (UnknownTimeZoneError name) w' →
     name = set_timezone request ∧ w' = w).
Proof.
  by_cases request; simpl; split_and!;
    try (split; [intros (? & ? & [=]) | intros (? & ? & ?)];
         done || congruence || eauto);
    try (intros ? ? [=]; done).
Qed.

(** X3. The recent report view raises exactly when the time zone name is
    not known, whatever the method; it then has built no query set. *)
Theorem X3_rsearch_recent_raises_iff request w :
  (response (rsearch_recent request w) = None ↔
     pytz_timezone (set_timezone request) = None) ∧
  (response (rsearch_recent request w) = None →
     final (rsearch_recent request w) = w).
Proof.
  destruct (pytz_timezone (set_timezone request)) as [tz|] eqn:Htz.
  - rewrite (rsearch_recent_known _ _ _ _ tz) by done. simpl. naive_solver.
  - rewrite rsearch_recent_unknown_timezone by done. simpl. naive_solver.
Qed.

(** X4. No view changes the tables, and a view builds at most one query
    set: the incident search over [Service_Issue], the report views over
    [Report]; a query set is built exactly when the page has results. *)
Theorem X4_views_query_once request w :
  db (final (search request w)) = db w ∧
  db (final (rsearch request w)) = db w ∧
  db (final (rsearch_recent request w)) = db w ∧
  queries (final (search request w))
  = match incident_rows (search request w) with
    | Some _ => Service_Issue_objects :: queries w
    | None => queries w
    end ∧
  queries (final (rsearch request w))
  = match report_rows (rsearch request w) with
    | Some _ => Report_objects :: queries w
    | None => queries w
    end ∧
  queries (final (rsearch_recent request w))
  = match report_rows (rsearch_recent request w) with
    | Some _ => Report_objects :: queries w
    | None => queries w
    end.
Proof. by_cases request; simpl; done. Qed.

(** X5. The page of a view is one of its two templates, and the results
    template is the one that has results: incident rows for the incident
    search, report rows for the report search. *)
Theorem X5_templates request w resp :
  (response (search request w) = Some resp →
     (template resp = "search/search.html"%string ∧
      results (context resp) = None ∧ is_Some (form (context resp))) ∨
     (template resp = "search/search_results.html"%string ∧
      (∃ rows, results (context resp) = Some (IncidentRows rows)) ∧
      form (context resp) = Some (SearchForm (Some (POST request))))) ∧
  (response (rsearch request w) = Some resp →
     (template resp = "search/rsearch.html"%string ∧
      results (context resp) = None ∧ is_Some (form (context resp))) ∨
     (template resp = "search/rsearch_results.html"%string ∧
      (∃ rows, results (context resp) = Some (ReportRows rows)) ∧
      form (context resp) = Some (SearchForm (Some (POST request))))) ∧
  (response (rsearch_recent request w) = Some resp →
     template resp = "search/rsearch_results.html"%string ∧
     (∃ rows, results (context resp) = Some (ReportRows rows)) ∧
     form (context resp) = None).
Proof.
  by_cases request; simpl; split_and!; intros [= <-]; simpl; eauto 10.
Qed.

(** ** Result sets *)

(** X6. The bounds are not compared with each other: a valid submission
    whose localized end is before its localized start gets a results page
    with no rows, from the incident search and from the report search. *)
Theorem X6_inverted_range_no_rows request w tz :
  method request = "POST"%string →
  is_valid (SearchForm (Some (POST request))) = true →
  pytz_timezone (set_timezone request) = Some tz →
  end_of request tz < start_of request tz →
  incident_rows (search request w) = Some [] ∧
  report_rows (rsearch request w) = Some [].
Proof.
  intros Hm Hv Htz Hlt.
  rewrite (search_valid _ _ _ _ _ _ tz), (rsearch_valid _ _ _ _ _ _ tz) by done.
  unfold incident_rows, report_rows. simpl. split; f_equal.
  - apply elem_of_nil_inv. intros row Hrow.
    apply elem_of_Service_Issue_filter in Hrow as (? & ? & ? & ? & ? & ? & ? & ? & ?).
    lia.
  - apply elem_of_nil_inv. intros row Hrow.
    apply elem_of_Report_filter in Hrow as (? & ? & ? & ? & ?).
    lia.
Qed.

(** X7. A status that is neither empty nor [closed] reaches the [isnull]
    lookup as a non-empty string, which is true: the rows are those of open
    incidents, as for [open]. *)
Theorem X7_other_status_as_open request w rows :
  method request = "POST"%string →
  is_valid (SearchForm (Some (POST request))) = true →
  status (SearchForm_cleaned (POST request)) ≠ ""%string →
  status (SearchForm_cleaned (POST request)) ≠ "closed"%string →
  incident_rows (search request w) = Some rows →
  Forall (λ row, ORM.incident__closed row = None) rows.
Proof.
  intros Hm Hv Hne Hnc Hrows.
  destruct (search_rows _ _ _ _ _ _ _ Hm Hv Hrows) as (tz & Htz & ->).
  apply Forall_forall. intros row Hrow.
  apply elem_of_Service_Issue_filter
    in Hrow as (si & i & _ & _ & _ & -> & Hc & _).
  simpl. unfold closed_isnull_of in Hc.
  repeat case_bool_decide; try done;
    unfold ORM.isnull, truthy in Hc;
    rewrite ?bool_decide_eq_false_2 in Hc by done; simpl in Hc;
    by destruct (i_closed i).
Qed.

Lemma Service_Issue_filter_closed (b : bool) lo hi txt d (row : ORM.IncidentRow) :
  row ∈ Service_Issue_filter (Some (PyBool b)) lo hi txt d →
  ORM.incident__closed row = None ↔ b = true.
Proof.
  intros Hrow.
  apply elem_of_Service_Issue_filter
    in Hrow as (si & i & _ & _ & _ & -> & Hc & _).
  simpl. destruct b, (i_closed i); simpl in Hc; split; done.
Qed.

Lemma Service_Issue_filter_split lo hi txt d (row : ORM.IncidentRow) :
  row ∈ Service_Issue_filter None lo hi txt d ↔
  row ∈ Service_Issue_filter (Some (PyBool true)) lo hi txt d ∨
  row ∈ Service_Issue_filter (Some (PyBool false)) lo hi txt d.
Proof.
  rewrite !elem_of_Service_Issue_filter. split.
  - intros (si & i & ? & ? & ? & ? & _ & ? & ?).
    destruct (i_closed i) eqn:Hcl; [right | left];
      exists si, i; split_and!; try done; try lia; simpl; by rewrite Hcl.
  - intros [(si & i & ? & ? & ? & ? & _ & ? & ?)
           |(si & i & ? & ? & ? & ? & _ & ? & ?)];
      exists si, i; done.
Qed.

(** X8. Open and closed split the rows of the search without status: for
    three valid submissions under one time zone name that differ in the
    status only, empty, [open] and [closed], the rows of the first are
    those of the second together with those of the third, and no row is in
    both. *)
Theorem X8_open_closed_partition r_any r_open r_closed w
    rows_any rows_open rows_closed :
  method r_any = "POST"%string →
  method r_open = "POST"%string →
  method r_closed = "POST"%string →
  is_valid (SearchForm (Some (POST r_any))) = true →
  is_valid (SearchForm (Some (POST r_open))) = true →
  is_valid (SearchForm (Some (POST r_closed))) = true →
  set_timezone r_open = set_timezone r_any →
  set_timezone r_closed = set_timezone r_any →
  status (SearchForm_cleaned (POST r_any)) = ""%string →
  SearchForm_cleaned (POST r_open) =
    {| s_date := s_date (SearchForm_cleaned (POST r_any));
       s_time := s_time (SearchForm_cleaned (POST r_any));
       e_date := e_date (SearchForm_cleaned (POST r_any));
       e_time := e_time (SearchForm_cleaned (POST r_any));
       text := text (SearchForm_cleaned (POST r_any));
       status := "open" |} →
  SearchForm_cleaned (POST r_closed) =
    {| s_date := s_date (SearchForm_cleaned (POST r_any));
       s_time := s_time (SearchForm_cleaned (POST r_any));
       e_date := e_date (SearchForm_cleaned (POST r_any));
       e_time := e_time (SearchForm_cleaned (POST r_any));
       text := text (SearchForm_cleaned (POST r_any));
       status := "closed" |} →
  incident_rows (search r_any w) = Some rows_any →
  incident_rows (search r_open w) = Some rows_open →
  incident_rows (search r_closed w) = Some rows_closed →
  rows_any ≡ₚ rows_open ++ rows_closed ∧
  Forall (λ row, row ∉ rows_closed) rows_open.
Proof.
  intros Ma Mo Mc Va Vo Vc To Tc Sa Eo Ec Ha Ho Hc.
  destruct (search_rows _ _ _ _ _ _ _ Ma Va Ha) as (tz & Htz & ->).
  destruct (search_rows _ _ _ _ _ _ _ Mo Vo Ho) as (tzo & Htzo & ->).
  destruct (search_rows _ _ _ _ _ _ _ Mc Vc Hc) as (tzc & Htzc & ->).
  rewrite To, Htz in Htzo. rewrite Tc, Htz in Htzc.
  injection Htzo as <-. injection Htzc as <-.
  unfold start_of, end_of. rewrite Sa, Eo, Ec. simpl.
  change (closed_isnull_of "") with (@None pyval).
  change (closed_isnull_of "open") with (Some (PyBool true)).
  change (closed_isnull_of "closed") with (Some (PyBool false)).
  set (lo := localize tz _). set (hi := localize tz _).
  set (txt := text _).
  assert (∀ row,
            row ∈ Service_Issue_filter (Some (PyBool true)) lo hi txt (db w) →
            row ∉ Service_Issue_filter (Some (PyBool false)) lo hi txt (db w))
    as Hdisj.
  { intros row Ho' Hc'.
    apply Service_Issue_filter_closed in Ho', Hc'.
    destruct Hc' as [Hc' _]. by specialize (Hc' (proj2 Ho' eq_refl)). }
  split; [|by apply Forall_forall].
  apply NoDup_Permutation.
  - apply NoDup_Service_Issue_filter.
  - apply NoDup_app. split_and!; [|done|]; apply NoDup_Service_Issue_filter.
  - intros row. rewrite elem_of_app. apply Service_Issue_filter_split.
Qed.

(** X9. An empty text filters nothing: a valid submission with an empty
    text gets every linked incident, and every report, whose date is in the
    range. *)
Theorem X9_empty_text_all_in_range request w irows rrows :
  method request = "POST"%string →
  is_valid (SearchForm (Some (POST request))) = true →
  text (SearchForm_cleaned (POST request)) = ""%string →
  status (SearchForm_cleaned (POST request)) = ""%string →
  incident_rows (search request w) = Some irows →
  report_rows (rsearch request w) = Some rrows →
  ∃ tz, pytz_timezone (set_timezone request) = Some tz ∧
    (∀ si i, si ∈ service_issues (db w) → i ∈ incidents (db w) →
       i_id i = si_incident_id si →
       start_of request tz ≤ i_date i ≤ end_of request tz →
       ORM.incident_values (si, i) ∈ irows) ∧
    (∀ r, r ∈ reports (db w) →
       start_of request tz ≤ r_date r ≤ end_of request tz →
       ORM.report_values r ∈ rrows).
Proof.
  intros Hm Hv Ht Hs Hi Hr.
  destruct (search_rows _ _ _ _ _ _ _ Hm Hv Hi) as (tz & Htz & ->).
  destruct (rsearch_rows _ _ _ _ _ _ _ Hm Hv Hr) as (tz' & Htz' & ->).
  rewrite Htz in Htz'. injection Htz' as <-.
  exists tz. rewrite Ht, Hs. split_and!; [done | |].
  - intros si i ? ? ? ?. apply elem_of_Service_Issue_filter.
    exists si, i. split_and!; try done; try lia. apply substring_of_empty.
  - intros r ? ?. apply elem_of_Report_filter.
    exists r. split_and!; try done; try lia. apply substring_of_empty.
Qed.

(** X10. The recent reports are the head of an unrestricted report search:
    when the text is empty and the range holds every report of the store,
    the rows of the recent view are the first five rows of the report
    search. *)
Theorem X10_recent_is_head_of_rsearch request request' w tz tz' rows :
  method request = "POST"%string →
  is_valid (SearchForm (Some (POST request))) = true →
  pytz_timezone (set_timezone request) = Some tz →
  pytz_timezone (set_timezone request') = Some tz' →
  text (SearchForm_cleaned (POST request)) = ""%string →
  Forall (λ r, start_of request tz ≤ r_date r ≤ end_of request tz)
    (reports (db w)) →
  report_rows (rsearch request w) = Some rows →
  report_rows (rsearch_recent request' w) = Some (take 5 rows).
Proof.
  intros Hm Hv Htz Htz' Ht Hall Hrows.
  rewrite (rsearch_valid _ _ _ _ _ _ tz) in Hrows by done.
  rewrite (rsearch_recent_known _ _ _ _ tz') by done.
  injection Hrows as <-. unfold report_rows. simpl. f_equal.
  unfold Report_recent, Report_filter. do 3 f_equal.
  symmetry. apply filter_all. intros r Hr.
  rewrite Forall_forall in Hall. specialize (Hall r Hr).
  apply andb_true_iff. rewrite ORMFacts.in_range_spec, StrFacts.contains_spec.
  split; [done|]. rewrite Ht. apply substring_of_empty.
Qed.

Lemma NoDup_report_ids (P : Report → Prop) `{∀ r, Decision (P r)}
    (d : database) (rows : list ORM.ReportRow) :
  NoDup (r_id <$> reports d) →
  rows ⊆+ ORM.report_values <$> filter P (reports d) →
  NoDup (ORM.id <$> rows).
Proof.
  intros Hkey Hsub.
  assert (ORM.id <$> rows ⊆+ r_id <$> reports d) as Hids.
  { etrans; [by apply fmap_submseteq|].
    rewrite <- list_fmap_compose.
    apply sublist_submseteq.
    change (ORM.id ∘ ORM.report_values) with r_id.
    apply fmap_sublist, sublist_filter. }
  apply submseteq_Permutation in Hids as [k Hk].
  rewrite Hk in Hkey. by apply NoDup_app in Hkey as [? _].
Qed.

(** X11. Report ids being a key of the report table, the rows of a report
    search are in strictly descending order of id: no id comes twice. *)
Theorem X11_rsearch_ids_strictly_descending request w rows :
  method request = "POST"%string →
  is_valid (SearchForm (Some (POST request))) = true →
  NoDup (r_id <$> reports (db w)) →
  report_rows (rsearch request w) = Some rows →
  StronglySorted (λ a b, ORM.id b < ORM.id a) rows.
Proof.
  intros Hm Hv Hkey Hrows.
  destruct (rsearch_rows _ _ _ _ _ _ _ Hm Hv Hrows) as (tz & Htz & ->).
  apply StronglySorted_strict.
  - apply StronglySorted_merge_sort; apply _.
  - eapply NoDup_report_ids; [done|].
    unfold Report_filter. apply Permutation_submseteq, merge_sort_Permutation.
Qed.

(** X12. Report ids being a key of the report table, the rows of the
    recent view are in strictly descending order of id. *)
Theorem X12_recent_ids_strictly_descending request w rows :
  NoDup (r_id <$> reports (db w)) →
  report_rows (rsearch_recent request w) = Some rows →
  StronglySorted (λ a b, ORM.id b < ORM.id a) rows.
Proof.
  intros Hkey Hrows.
  destruct (pytz_timezone (set_timezone request)) as [tz|] eqn:Htz;
    [|by rewrite rsearch_recent_unknown_timezone in Hrows].
  rewrite (rsearch_recent_known _ _ _ _ tz) in Hrows by done.
  injection Hrows as <-.
  apply StronglySorted_strict; [apply Report_recent_sorted|].
  apply (NoDup_report_ids (λ _, True) (db w)); [done|].
  rewrite filter_all by done. apply Report_recent_submseteq.
Qed.

(** X13. Narrowing a search narrows its result: of two valid incident
    searches with one status under one zone, the one whose range lies
    within the range of the other and whose text contains the text of the
    other has its rows among the rows of the other. *)
Theorem X13_narrower_search_fewer_rows request1 request2 w tz rows1 rows2 :
  method request1 = "POST"%string →
  method request2 = "POST"%string →
  is_valid (SearchForm (Some (POST request1))) = true →
  is_valid (SearchForm (Some (POST request2))) = true →
  pytz_timezone (set_timezone request1) = Some tz →
  pytz_timezone (set_timezone request2) = Some tz →
  status (SearchForm_cleaned (POST request1))
  = status (SearchForm_cleaned (POST request2)) →
  start_of request2 tz ≤ start_of request1 tz →
  end_of request1 tz ≤ end_of request2 tz →
  Str.substring_of (text (SearchForm_cleaned (POST request2)))
    (text (SearchForm_cleaned (POST request1))) →
  incident_rows (search request1 w) = Some rows1 →
  incident_rows (search request2 w) = Some rows2 →
  rows1 ⊆ rows2.
Proof.
  intros M1 M2 V1 V2 T1 T2 Hst Hlo Hhi Htxt H1 H2.
  rewrite (search_valid _ _ _ _ _ _ tz) in H1 by done.
  rewrite (search_valid _ _ _ _ _ _ tz) in H2 by done.
  injection H1 as <-. injection H2 as <-.
  intros row Hrow. rewrite Hst in Hrow.
  apply elem_of_Service_Issue_filter
    in Hrow as (si & i & ? & ? & ? & ? & ? & ? & Hsub).
  apply elem_of_Service_Issue_filter. exists si, i.
  split_and!; try done; try lia.
  by eapply substring_of_trans.
Qed.

End MoreViewFacts.

(** ** The further properties on the concrete installation *)

(** X6 on a form whose range runs from the 31st back to the 1st. *)
Lemma X6_witness :
  incident_rows
    (search Fixture.TIME_ZONE Fixture.pytz_timezone Fixture.SearchForm_errors
       (λ _, {| s_date := Fixture.day31; s_time := Fixture.midnight;
                e_date := Fixture.day1; e_time := Fixture.midnight;
                text := ""; status := "" |})
       Fixture.req_any Fixture.world0) = Some [] ∧
  report_rows
    (rsearch Fixture.TIME_ZONE Fixture.pytz_timezone Fixture.SearchForm_errors
       (λ _, {| s_date := Fixture.day31; s_time := Fixture.midnight;
                e_date := Fixture.day1; e_time := Fixture.midnight;
                text := ""; status := "" |})
       Fixture.req_any Fixture.world0) = Some [].
Proof.
  apply (X6_inverted_range_no_rows
           Fixture.TIME_ZONE Fixture.pytz_timezone Fixture.SearchForm_errors _
           Fixture.req_any Fixture.world0 (Fixture.fixed_zone "UTC" 0));
    [reflexivity | reflexivity | reflexivity | vm_compute; reflexivity].
Defined.

Section MoreOnFixture.

Import Fixture.

Local Abbreviation set_timezone := (set_timezone TIME_ZONE).
Local Abbreviation start_of := (start_of SearchForm_cleaned).
Local Abbreviation end_of := (end_of SearchForm_cleaned).
Local Abbreviation is_valid := (is_valid SearchForm_errors).

(** X1 on a GET whose cookie names no zone. *)
Lemma X1_witness :
  search (get [("timezone", "Mars/Phobos")]%string) world0 =
    Returned
      {| template := "search/search.html";
         context := {| title := "SSD Incident Search"; results := None;
                       form := Some {| is_bound := false; data := ∅ |} |} |}
      world0 ∧
  rsearch (get [("timezone", "Mars/Phobos")]%string) world0 =
    Returned
      {| template := "search/rsearch.html";
         context := {| title := "SSD Incident Report Search"; results := None;
                       form := Some {| is_bound := false; data := ∅ |} |} |}
      world0.
Proof.
  apply (X1_other_method_blank_form
           TIME_ZONE pytz_timezone SearchForm_errors SearchForm_cleaned).
  vm_compute. discriminate.
Defined.

(** X7 on a submission with status [pending]. *)
Lemma X7_witness :
  Forall (λ row, ORM.incident__closed row = None) [row_disk].
Proof.
  apply (X7_other_status_as_open
           TIME_ZONE pytz_timezone SearchForm_errors SearchForm_cleaned
           (post [("s_date", "2013-01-01"); ("text", "failure");
                  ("status", "pending")]%string [])
           world0);
    vm_compute; (reflexivity || discriminate).
Defined.

(** X8 on the three submissions for the text [failure]. *)
Lemma X8_witness :
  [row_network; row_disk] ≡ₚ [row_disk] ++ [row_network] ∧
  Forall (λ row, row ∉ [row_network]) [row_disk].
Proof.
  apply (X8_open_closed_partition
           TIME_ZONE pytz_timezone SearchForm_errors SearchForm_cleaned
           req_any req_open
           (post [("s_date", "2013-01-01"); ("text", "failure");
                  ("status", "closed")]%string [])
           world0);
    vm_compute; reflexivity.
Defined.

(** X9 on a submission without text. *)
Lemma X9_witness :
  ∃ tz, pytz_timezone (set_timezone (post [("s_date", "2013-01-01")]%string []))
        = Some tz ∧
    (∀ si i, si ∈ service_issues (db world0) → i ∈ incidents (db world0) →
       i_id i = si_incident_id si →
       start_of (post [("s_date", "2013-01-01")]%string []) tz ≤ i_date i
         ≤ end_of (post [("s_date", "2013-01-01")]%string []) tz →
       ORM.incident_values (si, i) ∈ [row_network; row_disk]) ∧
    (∀ r, r ∈ reports (db world0) →
       start_of (post [("s_date", "2013-01-01")]%string []) tz ≤ r_date r
         ≤ end_of (post [("s_date", "2013-01-01")]%string []) tz →
       ORM.report_values r ∈ [row_slow_network; row_slow_disk]).
Proof.
  apply (X9_empty_text_all_in_range
           TIME_ZONE pytz_timezone SearchForm_errors SearchForm_cleaned
           (post [("s_date", "2013-01-01")]%string []) world0);
    vm_compute; reflexivity.
Defined.

(** X10 on a submission without text, whose range holds both reports. *)
Lemma X10_witness :
  report_rows (rsearch_recent req_closed world0)
  = Some (take 5 [row_slow_network; row_slow_disk]).
Proof.
  apply (X10_recent_is_head_of_rsearch
           TIME_ZONE pytz_timezone SearchForm_errors SearchForm_cleaned
           (post [("s_date", "2013-01-01")]%string []) req_closed world0
           (fixed_zone "UTC" 0) (fixed_zone "Etc/GMT-3" 10800));
    [reflexivity | reflexivity | reflexivity | reflexivity | reflexivity
    | repeat constructor; vm_compute; discriminate
    | vm_compute; reflexivity].
Defined.

(** X11 on the report search for [slow]. *)
Lemma X11_witness :
  StronglySorted (λ a b, ORM.id b < ORM.id a)
    [row_slow_network; row_slow_disk].
Proof.
  apply (X11_rsearch_ids_strictly_descending
           TIME_ZONE pytz_timezone SearchForm_errors SearchForm_cleaned
           req_slow world0);
    [reflexivity | reflexivity
    | apply (bool_decide_unpack _); vm_compute; exact I
    | vm_compute; reflexivity].
Defined.

(** X12 on a bare GET. *)
Lemma X12_witness :
  StronglySorted (λ a b, ORM.id b < ORM.id a)
    [row_slow_network; row_slow_disk].
Proof.
  apply (X12_recent_ids_strictly_descending
           TIME_ZONE pytz_timezone (get []) world0);
    [apply (bool_decide_unpack _); vm_compute; exact I
    | vm_compute; reflexivity].
Defined.

(** X13 on the searches for [network failure] and for [failure]. *)
Lemma X13_witness : [row_network] ⊆ [row_network; row_disk].
Proof.
  apply (X13_narrower_search_fewer_rows
           TIME_ZONE pytz_timezone SearchForm_errors SearchForm_cleaned
           (post [("s_date", "2013-01-01"); ("text", "network failure")]%string [])
           req_any world0 (fixed_zone "UTC" 0));
    [reflexivity | reflexivity | reflexivity | reflexivity
    | reflexivity | reflexivity | reflexivity
    | vm_compute; discriminate | vm_compute; discriminate
    | apply StrFacts.contains_spec; vm_compute; reflexivity
    | vm_compute; reflexivity | vm_compute; reflexivity].
Defined.

End MoreOnFixture.
